(** * clouway/go-genproto: transport helpers of the rpc packages

  A shallow embedding of

  - [clouwayapis/rpc/httpkit/errors.go]: [ErrorEncoder], [HttpError],
    [httpStatusFromCode];
  - [clouwayapis/rpc/grpckit/grpc.go]: [MetadataToContext].

  Go values are modelled as follows.  An [int] and a [codes.Code] are
  integers in [Z]; a [[]byte] is a [list Byte.byte] (the nil slice and the
  empty slice are both [[]] where the code only writes them out); a Go
  [map[string]T] is a [gmap string T]; an interface value with optional
  capabilities (discovered in the source by comma-ok type assertions) is a
  record with one optional field per capability; a run-time panic is an
  explicit outcome of the computation. *)

From Stdlib Require Import ZArith Ascii String List Bool.
From stdpp Require Import base option list gmap strings fin_maps.

Local Open Scope string_scope.
Local Open Scope Z_scope.

Definition bytes : Type := list Byte.byte.

(** How a Go call ends: it returns a value, or it panics at run time. *)
Inductive outcome (A : Type) :=
| Returned (a : A)
| Panicked (reason : string).
Arguments Returned {A} a.
Arguments Panicked {A} reason.

(* ------------------------------------------------------------------ *)
(** ** google.golang.org/grpc/codes *)

Module codes.

(** [type Code uint32] with the seventeen canonical values. *)
Definition Code : Type := Z.

Definition OK : Code := 0.
Definition Canceled : Code := 1.
Definition Unknown : Code := 2.
Definition InvalidArgument : Code := 3.
Definition DeadlineExceeded : Code := 4.
Definition NotFound : Code := 5.
Definition AlreadyExists : Code := 6.
Definition PermissionDenied : Code := 7.
Definition ResourceExhausted : Code := 8.
Definition FailedPrecondition : Code := 9.
Definition Aborted : Code := 10.
Definition OutOfRange : Code := 11.
Definition Unimplemented : Code := 12.
Definition Internal : Code := 13.
Definition Unavailable : Code := 14.
Definition DataLoss : Code := 15.
Definition Unauthenticated : Code := 16.

(** The closed enumeration, in declaration order. *)
Definition all : list Code :=
  [OK; Canceled; Unknown; InvalidArgument; DeadlineExceeded; NotFound;
   AlreadyExists; PermissionDenied; ResourceExhausted; FailedPrecondition;
   Aborted; OutOfRange; Unimplemented; Internal; Unavailable; DataLoss;
   Unauthenticated].

End codes.

(* ------------------------------------------------------------------ *)
(** ** net/http: status constants and the header collection *)

Module http.

Definition StatusOK : Z := 200.
Definition StatusBadRequest : Z := 400.
Definition StatusUnauthorized : Z := 401.
Definition StatusForbidden : Z := 403.
Definition StatusNotFound : Z := 404.
Definition StatusRequestTimeout : Z := 408.
Definition StatusConflict : Z := 409.
Definition StatusTooManyRequests : Z := 429.
Definition StatusInternalServerError : Z := 500.
Definition StatusNotImplemented : Z := 501.
Definition StatusServiceUnavailable : Z := 503.
Definition StatusGatewayTimeout : Z := 504.

(** [validHeaderFieldByte]: the token characters of RFC 7230. *)
Definition validHeaderFieldByte (c : ascii) : bool :=
  let n := nat_of_ascii c in
  ((48 <=? n) && (n <=? 57))%nat || ((65 <=? n) && (n <=? 90))%nat
  || ((97 <=? n) && (n <=? 122))%nat
  || existsb (Nat.eqb n)
       [33; 35; 36; 37; 38; 39; 42; 43; 45; 46; 94; 95; 96; 124; 126]%nat.

Fixpoint allValid (s : string) : bool :=
  match s with
  | EmptyString => true
  | String c s' => validHeaderFieldByte c && allValid s'
  end.

Definition isLower (c : ascii) : bool :=
  ((97 <=? nat_of_ascii c) && (nat_of_ascii c <=? 122))%nat.
Definition isUpper (c : ascii) : bool :=
  ((65 <=? nat_of_ascii c) && (nat_of_ascii c <=? 90))%nat.

(** The second loop of [canonicalMIMEHeaderKey]: upper case at the start
    and after each dash, lower case elsewhere. *)
Fixpoint canonicalize (upper : bool) (s : string) : string :=
  match s with
  | EmptyString => EmptyString
  | String c s' =>
      let c' :=
        if upper && isLower c then ascii_of_nat (nat_of_ascii c - 32)
        else if negb upper && isUpper c then ascii_of_nat (nat_of_ascii c + 32)
        else c in
      String c' (canonicalize (Ascii.eqb c' "-"%char) s')
  end.

(** [textproto.CanonicalMIMEHeaderKey]: a key holding a byte that is not
    a token character is returned unchanged. *)
Definition CanonicalMIMEHeaderKey (s : string) : string :=
  if allValid s then canonicalize true s else s.

(** [type Header map[string][]string]; the nil map reads as the empty one. *)
Abbreviation Header := (gmap string (list string)).

Definition firstValue (h : Header) (key : string) : string :=
  match h !! key with
  | Some (v :: _) => v
  | _ => ""
  end.

(** [Header.Get]: the first value of the canonical key, or the empty string. *)
Definition Get (h : Header) (key : string) : string :=
  firstValue h (CanonicalMIMEHeaderKey key).

(** [Header.Set]: replaces the values of the canonical key by the one given. *)
Definition Set_ (h : Header) (key value : string) : Header :=
  <[CanonicalMIMEHeaderKey key := [value]]> h.

End http.

(* ------------------------------------------------------------------ *)
(** ** httpkit *)

Module httpkit.

Import http.

Definition JSONContentType : string := "application/json; charset=utf-8".

(** [httpStatusFromCode]: the switch of the source, one test per case in
    the order written, then the return that follows the switch. *)
Definition httpStatusFromCode (code : codes.Code) : Z :=
  if code =? codes.OK then StatusOK
  else if code =? codes.Canceled then StatusRequestTimeout
  else if code =? codes.Unknown then StatusInternalServerError
  else if code =? codes.InvalidArgument then StatusBadRequest
  else if code =? codes.DeadlineExceeded then StatusGatewayTimeout
  else if code =? codes.NotFound then StatusNotFound
  else if code =? codes.AlreadyExists then StatusConflict
  else if code =? codes.PermissionDenied then StatusForbidden
  else if code =? codes.Unauthenticated then StatusUnauthorized
  else if code =? codes.ResourceExhausted then StatusTooManyRequests
  else if code =? codes.FailedPrecondition then StatusBadRequest
  else if code =? codes.Aborted then StatusConflict
  else if code =? codes.OutOfRange then StatusBadRequest
  else if code =? codes.Unimplemented then StatusNotImplemented
  else if code =? codes.Internal then StatusInternalServerError
  else if code =? codes.Unavailable then StatusServiceUnavailable
  else if code =? codes.DataLoss then StatusInternalServerError
  else StatusInternalServerError.

(** *** The collaborators of the encoder

    [encoding/json], [protojson] and the payload types are libraries
    outside the repository: the development is parametric in them.  A
    marshaler returns the pair Go returns, the bytes and the error
    ([None] for a nil error). *)

Definition marshaled : Type := bytes * option string.

(** [protojson.MarshalOptions], of which the source sets one field. *)
Record MarshalOptions := { UseProtoNames : bool }.

(** [type errorWrapper struct { Message string `json:"message"` }] *)
Record errorWrapper := { Message : string }.

Class Marshalers := {
  (** the dynamic type behind a [proto.Message] *)
  protoMessage : Type;
  (** the dynamic type behind the [interface{}] payload of [HttpError] *)
  any : Type;
  (** [protojson.MarshalOptions.Marshal] *)
  protojson_Marshal : MarshalOptions -> protoMessage -> marshaled;
  (** [json.Marshal] at an [errorWrapper] *)
  json_Marshal_errorWrapper : errorWrapper -> marshaled;
  (** [json.Marshal] at a payload *)
  json_Marshal : any -> marshaled
}.

(** The response sink.  [http.ResponseWriter] is an interface: the model
    keeps the header map that [w.Header()] hands out (a shared, mutable
    map) and the calls of [WriteHeader] and [Write], oldest first. *)
Inductive call :=
| WriteHeaderCall (statusCode : Z)
| WriteCall (body : bytes).

Record ResponseWriter := {
  header : Header;
  calls : list call
}.

(** A computation on the sink returns or panics; the sink keeps the
    effects that happened before a panic. *)
Definition M (A : Type) : Type := ResponseWriter -> outcome A * ResponseWriter.

Definition ret {A} (a : A) : M A := fun w => (Returned a, w).

Definition bind {A B} (m : M A) (k : A -> M B) : M B :=
  fun w =>
    match m w with
    | (Returned a, w') => k a w'
    | (Panicked r, w') => (Panicked r, w')
    end.

Definition panic {A} (reason : string) : M A := fun w => (Panicked reason, w).

#[export] Instance M_ret : MRet M := @ret.
#[export] Instance M_bind : MBind M := fun A B k m => bind m k.

(** [w.Header().Set(k, v)] *)
Definition HeaderSet (k v : string) : M unit :=
  fun w => (Returned tt, {| header := Set_ (header w) k v; calls := calls w |}).

(** [w.WriteHeader(code)] *)
Definition WriteHeader (code : Z) : M unit :=
  fun w => (Returned tt,
            {| header := header w; calls := calls w ++ [WriteHeaderCall code] |}).

(** [w.Write(body)]; the source drops what it returns. *)
Definition Write (body : bytes) : M unit :=
  fun w => (Returned tt,
            {| header := header w; calls := calls w ++ [WriteCall body] |}).

(** [for k := range keys { body k }], the keys in the order the run-time
    happens to enumerate them. *)
Fixpoint forKeys (keys : list string) (body : string -> M unit) : M unit :=
  match keys with
  | [] => ret tt
  | k :: keys' => body k;; forKeys keys' body
  end.

(** One enumeration of the keys of a map; Go leaves the order open, see
    [copyHeaders_order] below. *)
Definition rangeKeys {V} (m : gmap string V) : list string := (map_to_list m).*1.

Section Encoder.

Context `{Marshalers}.

(** An element of [Status.Details()], a [[]interface{}]: the decoded
    detail, a [proto.Message], or, where the detail could not be decoded,
    the decoding error in its place. *)
Inductive detail :=
| DetailMessage (m : protoMessage)
| DetailError (e : string).

(** [*status.Status], through its accessors. *)
Record Status := {
  Code : codes.Code;
  StatusMessage : string;
  Details : list detail
}.

(** A non-nil [error], as [ErrorEncoder] sees it: what [err.Error()]
    returns, and for each capability the source asks for with a comma-ok
    test, [Some] of what the capability's method returns or [None] when the
    test fails. *)
Record error := {
  (** [err.Error()] *)
  Error : string;
  (** [err.(httptransport.Headerer)], then [Headers()] *)
  asHeaderer : option Header;
  (** [err.(httptransport.StatusCoder)], then [StatusCode()] *)
  asStatusCoder : option Z;
  (** [status.FromError(err)], [Some] when it answers ok *)
  FromError : option Status;
  (** [err.(json.Marshaler)], then [MarshalJSON()] *)
  asMarshaler : option marshaled
}.

(** [e.Details()[0].(proto.Message)]: an assertion without the comma-ok
    form panics when the dynamic type does not implement the interface. *)
Definition assertProtoMessage (d : detail) : M protoMessage :=
  match d with
  | DetailMessage m => ret m
  | DetailError _ =>
      panic "interface conversion: interface is not proto.Message"
  end.

(** The header loop, lines 39 to 43, over one enumeration of the keys. *)
Definition copyHeaders (hs : Header) (keys : list string) : M unit :=
  forKeys keys (fun k => HeaderSet k (Get hs k)).

(** Lines 48 to 67: the status and the body. *)
Definition statusAndBody (err : error) (code : Z) : M (Z * bytes) :=
  match FromError err with
  | Some e =>
      let code := httpStatusFromCode (Code e) in
      match Details e with
      | d :: _ =>
          let marshaller := {| UseProtoNames := true |} in
          m ← assertProtoMessage d;
          let '(jsonBody, _) := protojson_Marshal marshaller m in
          mret (code, jsonBody)
      | [] =>
          let '(body, _) :=
            json_Marshal_errorWrapper {| Message := StatusMessage e |} in
          mret (code, body)
      end
  | None =>
      match asMarshaler err with
      | Some (body, _) => mret (code, body)
      | None =>
          let '(body, _) :=
            json_Marshal_errorWrapper {| Message := Error err |} in
          let body :=
            match asMarshaler err with
            | Some (jsonBody, None) => jsonBody
            | _ => body
            end in
          mret (code, body)
      end
  end.

(** [ErrorEncoder], with the key enumeration of the header loop explicit. *)
Definition ErrorEncoderWith (order : Header -> list string) (err : error)
  : M unit :=
  HeaderSet "Content-Type" JSONContentType;;
  match asHeaderer err with
  | Some hs => copyHeaders hs (order hs)
  | None => mret tt
  end;;
  let code := StatusInternalServerError in
  let code :=
    match asStatusCoder err with
    | Some sc => sc
    | None => code
    end in
  '(code, body) ← statusAndBody err code;
  WriteHeader code;;
  Write body.

Definition ErrorEncoder (err : error) : M unit :=
  ErrorEncoderWith rangeKeys err.

(** The header map of the sink after lines 38 to 43, in closed form. *)
Definition headersAfter (err : error) (h : Header) : Header :=
  let h := Set_ h "Content-Type" JSONContentType in
  match asHeaderer err with
  | Some hs => foldl (fun h k => Set_ h k (Get hs k)) h (rangeKeys hs)
  | None => h
  end.

(** The status the source holds in [code] after line 47. *)
Definition customOrDefault (err : error) : Z :=
  match asStatusCoder err with
  | Some sc => sc
  | None => StatusInternalServerError
  end.

(** What the encoder leaves in the sink when it returns after writing
    [code] and [body]. *)
Definition written (err : error) (w : ResponseWriter) (code : Z) (body : bytes)
  : outcome unit * ResponseWriter :=
  (Returned tt,
   {| header := headersAfter err (header w);
      calls := calls w ++ [WriteHeaderCall code; WriteCall body] |}).

(** The body of the paths that are not the one of a status error. *)
Definition fallbackBody (err : error) : bytes :=
  match asMarshaler err with
  | Some (body, _) => body
  | None => (json_Marshal_errorWrapper {| Message := Error err |}).1
  end.

(** The simplified variant: as [statusAndBody], but the last branch only
    marshals the wrapper of [err.Error()], without the second look for a
    [json.Marshaler]. *)
Definition statusAndBody_simplified (err : error) (code : Z) : M (Z * bytes) :=
  match FromError err with
  | Some e =>
      let code := httpStatusFromCode (Code e) in
      match Details e with
      | d :: _ =>
          let marshaller := {| UseProtoNames := true |} in
          m ← assertProtoMessage d;
          let '(jsonBody, _) := protojson_Marshal marshaller m in
          mret (code, jsonBody)
      | [] =>
          let '(body, _) :=
            json_Marshal_errorWrapper {| Message := StatusMessage e |} in
          mret (code, body)
      end
  | None =>
      match asMarshaler err with
      | Some (body, _) => mret (code, body)
      | None =>
          let '(body, _) :=
            json_Marshal_errorWrapper {| Message := Error err |} in
          mret (code, body)
      end
  end.

Definition ErrorEncoder_simplified (err : error) : M unit :=
  HeaderSet "Content-Type" JSONContentType;;
  match asHeaderer err with
  | Some hs => copyHeaders hs (rangeKeys hs)
  | None => mret tt
  end;;
  let code := StatusInternalServerError in
  let code :=
    match asStatusCoder err with
    | Some sc => sc
    | None => code
    end in
  '(code, body) ← statusAndBody_simplified err code;
  WriteHeader code;;
  Write body.

(** *** HttpError *)

Record HttpError := {
  status : Z;
  headers : Header;
  payload : any
}.

Definition NewHttpError (code : Z) (payload : any) (headers : Header)
  : HttpError :=
  {| status := code; payload := payload; headers := headers |}.

Definition HttpError_Error (h : HttpError) : string := "HttpError".
Definition HttpError_StatusCode (h : HttpError) : Z := status h.
Definition HttpError_Headers (h : HttpError) : Header := headers h.
Definition HttpError_MarshalJSON (h : HttpError) : marshaled :=
  json_Marshal (payload h).

(** An [HttpError] as an [error]: its method set has [Headers],
    [StatusCode] and [MarshalJSON] and no [GRPCStatus]. *)
Definition HttpError_error (h : HttpError) : error :=
  {| Error := HttpError_Error h;
     asHeaderer := Some (HttpError_Headers h);
     asStatusCoder := Some (HttpError_StatusCode h);
     FromError := None;
     asMarshaler := Some (HttpError_MarshalJSON h) |}.

End Encoder.

(** *** NewBadRequestError *)

(** [fmt.Sprintf], which [status.Newf] applies to the format and the
    arguments; the arguments are values of any type. *)
Class Formatter := {
  fmtArg : Type;
  Sprintf : string -> list fmtArg -> string
}.

Section BadRequest.

Context `{Marshalers} `{Formatter}.

(** [status.Newf(c, format, a...)]: the status of code [c] whose message is
    the formatted text, with no details. *)
Definition status_Newf (c : codes.Code) (format : string) (a : list fmtArg)
  : Status :=
  {| Code := c; StatusMessage := Sprintf format a; Details := [] |}.

(** [st.Err()] for a status whose code is not [OK]: a [*status.Error], whose
    only methods are [Error], [GRPCStatus] and [Is], so that none of the
    three assertions of the encoder holds and [status.FromError] gives the
    status back.  ([Err] of an [OK] status is the nil error: [None].) *)
Definition Status_Err (name : string) (st : Status) : option error :=
  if Code st =? codes.OK then None
  else Some
    {| Error := "rpc error: code = " ++ name ++ " desc = " ++ StatusMessage st;
       asHeaderer := None;
       asStatusCoder := None;
       FromError := Some st;
       asMarshaler := None |}.

(** [NewBadRequestError], lines 24 to 27; [None] is the nil error. *)
Definition NewBadRequestError (format : string) (a : list fmtArg)
  : option error :=
  let st := status_Newf codes.InvalidArgument format a in
  Status_Err "InvalidArgument" st.

End BadRequest.

End httpkit.

(* ------------------------------------------------------------------ *)
(** ** grpckit *)

Module grpckit.

(** Modelled from the spec: the package [clouwayapis/rpc/request] that
    declares [ContextKey] is missing; the entry is "keyed by that metadata
    key", so [request.ContextKey(k)] is the conversion of the string to a
    key type of its own.  Keys of every other type are [OtherKey]: they
    never equal a [ContextKey]. *)
Inductive key :=
| ContextKey (k : string)
| OtherKey (k : string).

#[export] Instance key_eq_dec : EqDecision key.
Proof. solve_decision. Defined.

(** The value of an entry, an [interface{}]. *)
Inductive value :=
| VString (s : string)
| VOther (n : Z).

(** [context.Context] as far as values go: the chain that
    [context.WithValue] builds, looked up from the newest entry. *)
Inductive Context :=
| Background
| WithValue (parent : Context) (k : key) (v : value).

Fixpoint Value (ctx : Context) (k : key) : option value :=
  match ctx with
  | Background => None
  | WithValue parent k' v => if decide (k' = k) then Some v else Value parent k
  end.

(** A [[]string]: [None] is the nil slice, [Some l] a slice that is not
    nil, of length [length l] (so [Some []] is empty and not nil). *)
Definition slice : Type := option (list string).

(** [metadata.MD], a [map[string][]string]. *)
Abbreviation MD := (gmap string slice).

(** The loop of [MetadataToContext] over one enumeration of the map. *)
Fixpoint MetadataToContextFrom (kvs : list (string * slice)) (ctx : Context)
  : outcome Context :=
  match kvs with
  | [] => Returned ctx
  | (k, v) :: rest =>
      match v with
      | None => MetadataToContextFrom rest ctx
      | Some [] => Panicked "index out of range [0] with length 0"
      | Some (v0 :: _) =>
          MetadataToContextFrom rest (WithValue ctx (ContextKey k) (VString v0))
      end
  end.

Definition MetadataToContext (ctx : Context) (md : MD) : outcome Context :=
  MetadataToContextFrom (map_to_list md) ctx.

(** The entry the loop leaves for the key [k], given what the map holds
    for [k] and what the context held before. *)
Definition entryFor (held : option slice) (before : option value) : option value :=
  match held with
  | Some (Some (v0 :: _)) => Some (VString v0)
  | _ => before
  end.

(** *** EncodeGRPCBinaryFile *)

Section BinaryFile.

(** The struct [fileserve.BinaryFile]; its package is not part of the
    sources at hand, and the function never looks inside it. *)
Variable BinaryFile : Type.

(** A value of type [interface{}], by its dynamic type: the nil interface,
    a [*fileserve.BinaryFile] (a pointer, [None] when nil), or a value of
    some other type. *)
Inductive dynamic :=
| NilInterface
| BinaryFilePointer (p : option BinaryFile)
| OtherValue (typeName : string).

(** [EncodeGRPCBinaryFile], lines 25 to 28: the assertion of line 26 has no
    comma-ok form; the second component of the result is the error, always
    nil ([None]). *)
Definition EncodeGRPCBinaryFile (response : dynamic)
  : outcome (dynamic * option string) :=
  match response with
  | BinaryFilePointer p =>
      let resp := p in
      Returned (BinaryFilePointer resp, None)
  | NilInterface | OtherValue _ =>
      Panicked "interface conversion: interface {} is not *fileserve.BinaryFile"
  end.

End BinaryFile.

End grpckit.

(* ------------------------------------------------------------------ *)
(** ** A small instance of the collaborators, for worked examples *)

Module sample.

Import httpkit.

(** A flat message: named fields with string values. *)
Definition message : Type := list (string * string).

Definition quote (s : string) : bytes :=
  (Byte.x22 :: list_byte_of_string s ++ [Byte.x22])%list.

Fixpoint members (m : message) : bytes :=
  match m with
  | [] => []
  | [(k, v)] => (quote k ++ list_byte_of_string ":" ++ quote v)%list
  | (k, v) :: rest =>
      (quote k ++ list_byte_of_string ":" ++ quote v
         ++ list_byte_of_string "," ++ members rest)%list
  end.

(** The JSON object of a message whose names and values need no escape. *)
Definition object (m : message) : bytes :=
  (list_byte_of_string "{" ++ members m ++ list_byte_of_string "}")%list.

#[export] Instance marshalers : Marshalers := {|
  protoMessage := message;
  any := message;
  protojson_Marshal := fun _ m => (object m, None);
  json_Marshal_errorWrapper := fun e => (object [("message", Message e)], None);
  json_Marshal := fun m => (object m, None)
|}.

(** A sink nothing was written to. *)
Definition fresh : ResponseWriter := {| header := ∅; calls := [] |}.

(** [NewHttpError(400, {"reason": "bad"}, {"Content-Type": {"text/plain"}})] *)
Definition plainTextError : error :=
  HttpError_error
    (NewHttpError 400 [("reason", "bad")] {[ "Content-Type" := ["text/plain"] ]}).

Definition undecodableStatus : Status :=
  {| Code := codes.NotFound;
     StatusMessage := "no such user";
     Details := [DetailError "proto: not found"] |}.

(** A status error, not found, whose first detail could not be decoded,
    on an error that also reports a status of its own. *)
Definition undecodable : error :=
  {| Error := "rpc error: code = NotFound desc = no such user";
     asHeaderer := None;
     asStatusCoder := Some 418;
     FromError := Some undecodableStatus;
     asMarshaler := None |}.

(** [errors.New("boom")]: no capability at all. *)
Definition boom : error :=
  {| Error := "boom"; asHeaderer := None; asStatusCoder := None;
     FromError := None; asMarshaler := None |}.

(** An error that only reports the status 418. *)
Definition teapot : error :=
  {| Error := "short and stout"; asHeaderer := None; asStatusCoder := Some 418;
     FromError := None; asMarshaler := None |}.

Definition userDetail : message := [("user_id", "42")].

Definition notFoundStatus : Status :=
  {| Code := codes.NotFound;
     StatusMessage := "no such user";
     Details := [DetailMessage userDetail] |}.

(** A status error, not found, with one decoded detail. *)
Definition notFoundWithDetail : error :=
  {| Error := "rpc error: code = NotFound desc = no such user";
     asHeaderer := None;
     asStatusCoder := None;
     FromError := Some notFoundStatus;
     asMarshaler := None |}.

(** [metadata.MD{"user-id": {"42"}, "empty-key": {}}] *)
Definition md_empty_slice : grpckit.MD :=
  {[ "user-id" := Some ["42"]; "empty-key" := Some [] ]}.

(** [metadata.MD{"user-id": {"42"}, "empty-key": nil}] *)
Definition md_nil_slice : grpckit.MD :=
  {[ "user-id" := Some ["42"]; "empty-key" := None ]}.

(** [NewHttpError(409, {"reason": "conflict"}, {"X-Test": {"v1", "v2"}})] *)
Definition twoValues : error :=
  HttpError_error
    (NewHttpError 409 [("reason", "conflict")] {[ "X-Test" := ["v1"; "v2"] ]}).

(** [NewHttpError(409, {"reason": "conflict"}, {"x-test": {"v1"}})]: the key
    is not in canonical form. *)
Definition lowerCaseKey : error :=
  HttpError_error
    (NewHttpError 409 [("reason", "conflict")] {[ "x-test" := ["v1"] ]}).

(** [NewHttpError(409, {"reason": "conflict"},
      {"X-Test": {"v1"}, "x-test": {"v2"}, "X-Other": {"o"}})]: two keys
    with one canonical form. *)
Definition collidingKeys : error :=
  HttpError_error
    (NewHttpError 409 [("reason", "conflict")]
       {[ "X-Test" := ["v1"]; "x-test" := ["v2"]; "X-Other" := ["o"] ]}).

Definition notFoundPlainStatus : Status :=
  {| Code := codes.NotFound; StatusMessage := "no such user"; Details := [] |}.

(** A status error, not found, without details, on an error that also has a
    JSON form and a status of its own. *)
Definition notFoundPlain : error :=
  {| Error := "rpc error: code = NotFound desc = no such user";
     asHeaderer := None;
     asStatusCoder := Some 418;
     FromError := Some notFoundPlainStatus;
     asMarshaler := Some (object [("ignored", "yes")], None) |}.

(** The same status on a bare error. *)
Definition notFoundBare : error :=
  {| Error := "not found";
     asHeaderer := None;
     asStatusCoder := None;
     FromError := Some notFoundPlainStatus;
     asMarshaler := None |}.

(** An error whose [MarshalJSON] hands out bytes together with an error. *)
Definition halfMarshaled : error :=
  {| Error := "half";
     asHeaderer := None;
     asStatusCoder := None;
     FromError := None;
     asMarshaler := Some (object [("partial", "yes")], Some "unexpected end") |}.

(** A sink whose header map already holds two entries. *)
Definition preset : ResponseWriter :=
  {| header := {[ "X-Request-Id" := ["r1"]; "Content-Type" := ["text/html"] ]};
     calls := [] |}.

(** [context.WithValue(context.Background(), request.ContextKey("user-id"), "7")] *)
Definition ctx_user7 : grpckit.Context :=
  grpckit.WithValue grpckit.Background (grpckit.ContextKey "user-id")
    (grpckit.VString "7").

(** [metadata.MD{"user-id": {"42", "43"}, "trace": nil}] *)
Definition md_two_values : grpckit.MD :=
  {[ "user-id" := Some ["42"; "43"]; "trace" := None ]}.

(** [metadata.MD{"a": nil, "b": nil}] *)
Definition md_all_nil : grpckit.MD :=
  {[ "a" := None; "b" := None ]}.

End sample.

(* ------------------------------------------------------------------ *)
(** ** The status table *)

Section StatusTable.

Import httpkit.

Lemma httpStatusFromCode_unrecognized (c : codes.Code) :
  c < 0 ∨ 16 < c → httpStatusFromCode c = 500.
Proof.
  intros Hc. unfold httpStatusFromCode.
  unfold codes.OK, codes.Canceled, codes.Unknown, codes.InvalidArgument,
    codes.DeadlineExceeded, codes.NotFound, codes.AlreadyExists,
    codes.PermissionDenied, codes.Unauthenticated, codes.ResourceExhausted,
    codes.FailedPrecondition, codes.Aborted, codes.OutOfRange,
    codes.Unimplemented, codes.Internal, codes.Unavailable, codes.DataLoss.
  repeat (case Z.eqb_spec; [lia | intros _]).
  reflexivity.
Qed.

Lemma codes_all_range (c : codes.Code) : c ∈ codes.all ↔ 0 <= c <= 16.
Proof.
  unfold codes.all. split.
  - intros Hin. repeat (apply elem_of_cons in Hin as [-> | Hin]; [vm_compute; split; discriminate |]).
    by apply elem_of_nil in Hin.
  - intros [H0 H16].
    assert (Hc : ∃ n : nat, (n <= 16)%nat ∧ c = Z.of_nat n).
    { exists (Z.to_nat c). lia. }
    destruct Hc as (n & Hn & ->).
    do 17 (destruct n as [| n]; [set_solver |]). lia.
Qed.

(** C1.  [httpStatusFromCode] maps each of the seventeen codes of the
    enumeration to the HTTP status of the table, and every other value of
    the code to 500.  It is a function of the code alone. *)
Theorem httpStatusFromCode_table :
  httpStatusFromCode codes.OK = 200
  ∧ httpStatusFromCode codes.Canceled = 408
  ∧ httpStatusFromCode codes.Unknown = 500
  ∧ httpStatusFromCode codes.InvalidArgument = 400
  ∧ httpStatusFromCode codes.DeadlineExceeded = 504
  ∧ httpStatusFromCode codes.NotFound = 404
  ∧ httpStatusFromCode codes.AlreadyExists = 409
  ∧ httpStatusFromCode codes.PermissionDenied = 403
  ∧ httpStatusFromCode codes.Unauthenticated = 401
  ∧ httpStatusFromCode codes.ResourceExhausted = 429
  ∧ httpStatusFromCode codes.FailedPrecondition = 400
  ∧ httpStatusFromCode codes.Aborted = 409
  ∧ httpStatusFromCode codes.OutOfRange = 400
  ∧ httpStatusFromCode codes.Unimplemented = 501
  ∧ httpStatusFromCode codes.Internal = 500
  ∧ httpStatusFromCode codes.Unavailable = 503
  ∧ httpStatusFromCode codes.DataLoss = 500
  ∧ ∀ c : codes.Code, c ∉ codes.all → httpStatusFromCode c = 500.
Proof.
  repeat (split; [reflexivity |]).
  intros c Hc. apply httpStatusFromCode_unrecognized.
  rewrite codes_all_range in Hc. lia.
Qed.

Lemma httpStatusFromCode_table_witness :
  (99 ∉ codes.all) ∧ httpStatusFromCode 99 = 500.
Proof.
  assert (Hout : 99 ∉ codes.all).
  { rewrite codes_all_range. lia. }
  split; [exact Hout |].
  exact (proj2 (proj2 (proj2 (proj2 (proj2 (proj2 (proj2 (proj2 (proj2
          (proj2 (proj2 (proj2 (proj2 (proj2 (proj2 (proj2 (proj2
            httpStatusFromCode_table)))))))))))))))) 99 Hout).
Defined.

End StatusTable.

(* ------------------------------------------------------------------ *)
(** ** The header loop *)

Section HeaderLoop.

Import http httpkit.

Lemma forKeys_HeaderSet (f : string → string) (keys : list string) (w : ResponseWriter) :
  forKeys keys (λ k, HeaderSet k (f k)) w
  = (Returned tt,
     {| header := foldl (λ h k, Set_ h k (f k)) (header w) keys;
        calls := calls w |}).
Proof.
  revert w. induction keys as [| k keys IH]; intros w.
  - by destruct w.
  - cbn [forKeys foldl]. unfold mbind, M_bind, bind. cbn. by rewrite IH.
Qed.

(** After the loop, a canonical name that some key of the enumeration
    maps to holds the single value [Get] reads for it; every other name
    is as before. *)
Lemma foldl_Set_lookup (hs : Header) (keys : list string) (h : Header) (c : string) :
  foldl (λ h k, Set_ h k (Get hs k)) h keys !! c
  = if bool_decide (c ∈ CanonicalMIMEHeaderKey <$> keys)
    then Some [firstValue hs c] else h !! c.
Proof.
  revert h. induction keys as [| k keys IH]; intros h.
  - cbn. rewrite bool_decide_false; [done | apply not_elem_of_nil].
  - cbn [foldl]. rewrite IH, fmap_cons. unfold Set_ at 1. unfold Get at 1.
    destruct (decide (c ∈ CanonicalMIMEHeaderKey <$> keys)) as [Hin | Hnin].
    + rewrite (bool_decide_true _ Hin).
      rewrite bool_decide_true; [done |]. apply elem_of_cons. by right.
    + rewrite (bool_decide_false _ Hnin).
      destruct (decide (CanonicalMIMEHeaderKey k = c)) as [<- | Hne].
      * rewrite lookup_insert_eq.
        rewrite bool_decide_true; [done |]. apply elem_of_cons. by left.
      * rewrite lookup_insert_ne by done.
        rewrite bool_decide_false; [done |].
        rewrite elem_of_cons. intros [Heq | Hin]; [by subst | done].
Qed.

(** The order in which the run-time enumerates the keys of the error's
    header map does not show in the sink. *)
Lemma copyHeaders_order `{Marshalers} (hs : Header) (keys keys' : list string)
    (w : ResponseWriter) :
  keys ≡ₚ keys' → copyHeaders hs keys w = copyHeaders hs keys' w.
Proof.
  intros Hperm. unfold copyHeaders. rewrite !forKeys_HeaderSet.
  do 2 f_equal. apply map_eq. intros c. rewrite !foldl_Set_lookup.
  assert (Hiff : c ∈ CanonicalMIMEHeaderKey <$> keys
                 ↔ c ∈ CanonicalMIMEHeaderKey <$> keys').
  { by rewrite Hperm. }
  destruct (decide (c ∈ CanonicalMIMEHeaderKey <$> keys)) as [Hin | Hnin].
  - by rewrite !bool_decide_true by tauto.
  - by rewrite !bool_decide_false by tauto.
Qed.

Lemma elem_of_rangeKeys {V} (m : gmap string V) (k : string) :
  k ∈ rangeKeys m ↔ is_Some (m !! k).
Proof.
  unfold rangeKeys. rewrite list_elem_of_fmap. split.
  - intros [[k' v] [-> Hin]]. apply elem_of_map_to_list in Hin. by exists v.
  - intros [v Hv]. exists (k, v). split; [done |]. by apply elem_of_map_to_list.
Qed.

End HeaderLoop.

(* ------------------------------------------------------------------ *)
(** ** The encoder *)

Section EncoderFacts.

Import http httpkit.
Context `{Ms : Marshalers}.

(** Runs the monadic steps in the goal, splitting on what the
    collaborators return. *)
Ltac step :=
  first
    [ progress (unfold mbind, M_bind, bind, mret, M_ret, ret, panic; cbn)
    | match goal with
      | |- context [json_Marshal_errorWrapper ?x] =>
          destruct (json_Marshal_errorWrapper x)
      | |- context [protojson_Marshal ?o ?m] =>
          destruct (protojson_Marshal o m)
      end ].
Ltac step_all := repeat step.

(** Splits on the capabilities of an error in the order [statusAndBody]
    asks for them, then runs each case. *)
Ltac split_error err :=
  let e := fresh "e" in
  destruct (FromError err) as [e |];
    [ destruct (Details e) as [| [? | ?] ?] | destruct (asMarshaler err) as [[? ?] |] ];
  step_all.

(** Choosing the status and the body leaves the sink alone. *)
Lemma statusAndBody_sink (err : error) (code : Z) (w : ResponseWriter) :
  (statusAndBody err code w).2 = w.
Proof.
  unfold statusAndBody, assertProtoMessage. by split_error err.
Qed.

(** And its result does not depend on the sink. *)
Lemma statusAndBody_result (err : error) (code : Z) (w w' : ResponseWriter) :
  (statusAndBody err code w).1 = (statusAndBody err code w').1.
Proof.
  unfold statusAndBody, assertProtoMessage. by split_error err.
Qed.

(** [ErrorEncoder] in one step: the headers, then either a panic with
    nothing written, or the status line followed by the body. *)
Lemma ErrorEncoder_run (err : error) (w : ResponseWriter) :
  ErrorEncoder err w
  = let w1 := {| header := headersAfter err (header w); calls := calls w |} in
    match (statusAndBody err (customOrDefault err) w1).1 with
    | Returned (code, body) =>
        (Returned tt,
         {| header := header w1;
            calls := calls w ++ [WriteHeaderCall code; WriteCall body] |})
    | Panicked r => (Panicked r, w1)
    end.
Proof.
  unfold ErrorEncoder, ErrorEncoderWith, headersAfter, customOrDefault.
  unfold mbind, M_bind, bind, HeaderSet. cbn zeta.
  assert (Hhdr :
    match asHeaderer err with
    | Some hs => copyHeaders hs (rangeKeys hs)
    | None => mret ()
    end {| header := Set_ (header w) "Content-Type" JSONContentType;
           calls := calls w |}
    = (Returned tt,
       {| header := match asHeaderer err with
                    | Some hs =>
                        foldl (λ h k, Set_ h k (Get hs k))
                          (Set_ (header w) "Content-Type" JSONContentType)
                          (rangeKeys hs)
                    | None => Set_ (header w) "Content-Type" JSONContentType
                    end;
          calls := calls w |})).
  { destruct (asHeaderer err) as [hs |]; [| done].
    unfold copyHeaders. by rewrite forKeys_HeaderSet. }
  cbn in Hhdr |- *. rewrite Hhdr. clear Hhdr.
  match goal with
  | |- context [statusAndBody err ?c ?w1] =>
      pose proof (statusAndBody_sink err c w1) as Hsink;
      destruct (statusAndBody err c w1) as [[[code body] | r] w2]
  end; cbn in Hsink |- *; subst; [| done].
  unfold WriteHeader, Write. cbn. by rewrite <- app_assoc.
Qed.

(** Where the first detail, if there is one, is a decoded message, the
    status of a status error is the one of the table, whatever status the
    error reports itself. *)
Lemma status_error_overrides_custom (err : error) (w : ResponseWriter)
    (sc : Z) (e : Status) :
  asStatusCoder err = Some sc →
  FromError err = Some e →
  (∀ x ds, Details e ≠ DetailError x :: ds) →
  ∃ body, ErrorEncoder err w = written err w (httpStatusFromCode (Code e)) body.
Proof.
  intros _ He Hdec. rewrite ErrorEncoder_run. unfold written, statusAndBody.
  rewrite He. destruct (Details e) as [| [m | x] ds]; step_all; eauto.
  by destruct (Hdec x ds).
Qed.

(** The encoder returns, with the status line and the body written in
    this order, unless the first detail of a status error is not a
    message: an error from a marshaler never stops it. *)
Lemma ErrorEncoder_returns (err : error) (w : ResponseWriter) :
  (∀ e x ds, FromError err = Some e → Details e ≠ DetailError x :: ds) →
  ∃ code body, ErrorEncoder err w = written err w code body.
Proof.
  intros Hdec. rewrite ErrorEncoder_run. unfold written, statusAndBody.
  destruct (FromError err) as [e |] eqn:He.
  - destruct (Details e) as [| [m | x] ds] eqn:Hd; step_all; eauto.
    by destruct (Hdec e x ds).
  - destruct (asMarshaler err) as [[body merr] |]; step_all; eauto.
Qed.

(** C3.  The encoder does not always return: when the first detail of a
    status error is not a [proto.Message] (the library hands out the
    decoding error in its place), the unchecked assertion of line 53
    panics, after the headers were set and before the status line or the
    body is written. *)
Theorem ErrorEncoder_panics_on_undecoded_detail (err : error)
    (w : ResponseWriter) (e : Status) (x : string) (ds : list detail) :
  FromError err = Some e →
  Details e = DetailError x :: ds →
  ∃ r, ErrorEncoder err w
       = (Panicked r,
          {| header := headersAfter err (header w); calls := calls w |}).
Proof.
  intros He Hd. rewrite ErrorEncoder_run. unfold statusAndBody.
  rewrite He, Hd. step_all. eauto.
Qed.

(** C5.  For a status error whose first detail is the message [D], the
    encoder returns and the body it writes is what [protojson] with
    [UseProtoNames] gives for [D]; the text of the message has no part in
    it. *)
Theorem ErrorEncoder_first_detail_body (err : error) (w : ResponseWriter)
    (e : Status) (D : protoMessage) (ds : list detail) :
  FromError err = Some e →
  Details e = DetailMessage D :: ds →
  ErrorEncoder err w
  = written err w (httpStatusFromCode (Code e))
      (protojson_Marshal {| UseProtoNames := true |} D).1.
Proof.
  intros He Hd. rewrite ErrorEncoder_run. unfold written, statusAndBody.
  rewrite He, Hd. by step_all.
Qed.

(** C7.  For an error with no status, no status code of its own and no
    JSON form, the encoder writes 500 and the JSON of the wrapper around
    [err.Error()]. *)
Theorem ErrorEncoder_default (err : error) (w : ResponseWriter) :
  FromError err = None →
  asStatusCoder err = None →
  asMarshaler err = None →
  ErrorEncoder err w
  = written err w 500
      (json_Marshal_errorWrapper {| Message := Error err |}).1.
Proof.
  intros He Hsc Hm. rewrite ErrorEncoder_run.
  unfold written, statusAndBody, customOrDefault.
  rewrite He, Hsc, Hm. by step_all.
Qed.

(** C8.  For an error that reports a status code [sc] and is not a status
    error, the encoder writes [sc], and as body the bytes of
    [MarshalJSON] where the error has it, the JSON of the wrapper around
    [err.Error()] otherwise. *)
Theorem ErrorEncoder_custom_status (err : error) (w : ResponseWriter) (sc : Z) :
  asStatusCoder err = Some sc →
  FromError err = None →
  ErrorEncoder err w = written err w sc (fallbackBody err).
Proof.
  intros Hsc He. rewrite ErrorEncoder_run.
  unfold written, statusAndBody, customOrDefault, fallbackBody.
  rewrite He, Hsc. destruct (asMarshaler err) as [[body merr] |]; by step_all.
Qed.

(** C10.  The encoder and the variant whose last branch only marshals the
    wrapper of [err.Error()] agree on every error and every sink: the
    second look for a [json.Marshaler] in that branch never finds one. *)
Theorem ErrorEncoder_simplified_eq (err : error) (w : ResponseWriter) :
  ErrorEncoder err w = ErrorEncoder_simplified err w.
Proof.
  unfold ErrorEncoder, ErrorEncoderWith, ErrorEncoder_simplified.
  assert (Hbody : ∀ code,
    statusAndBody err code = statusAndBody_simplified err code).
  { intros code. unfold statusAndBody, statusAndBody_simplified.
    destruct (FromError err) as [e |]; [done |].
    destruct (asMarshaler err) as [[body merr] |] eqn:Hm; [done |].
    by destruct (json_Marshal_errorWrapper _). }
  by rewrite Hbody.
Qed.

(** The header map of the sink is the same whether the encoder returns
    or panics: the headers are set before anything can fail. *)
Lemma ErrorEncoder_header (err : error) (w : ResponseWriter) :
  header (ErrorEncoder err w).2 = headersAfter err (header w).
Proof.
  rewrite ErrorEncoder_run. cbn zeta.
  by destruct (statusAndBody _ _ _).1 as [[code body] | r].
Qed.

Lemma headersAfter_lookup (err : error) (h : Header) (c : string) :
  headersAfter err h !! c
  = match asHeaderer err with
    | Some hs =>
        if bool_decide (c ∈ CanonicalMIMEHeaderKey <$> rangeKeys hs)
        then Some [firstValue hs c]
        else Set_ h "Content-Type" JSONContentType !! c
    | None => Set_ h "Content-Type" JSONContentType !! c
    end.
Proof.
  unfold headersAfter. destruct (asHeaderer err) as [hs |]; [| done].
  apply foldl_Set_lookup.
Qed.

(** C6, as amended.  The sink's header map holds the JSON content type
    under [Content-Type] when the encoder ends, on every status and body
    path, for an error that carries no headers or whose header map has no
    key with the canonical form [Content-Type]. *)
Theorem ErrorEncoder_content_type (err : error) (w : ResponseWriter) :
  (∀ hs k, asHeaderer err = Some hs → is_Some (hs !! k) →
           CanonicalMIMEHeaderKey k ≠ "Content-Type") →
  header (ErrorEncoder err w).2 !! "Content-Type" = Some [JSONContentType].
Proof.
  intros Hkeys. rewrite ErrorEncoder_header, headersAfter_lookup.
  assert (Hset : ∀ h : Header,
    Set_ h "Content-Type" JSONContentType !! "Content-Type"
    = Some [JSONContentType]).
  { intros h. unfold Set_. apply lookup_insert_eq. }
  destruct (asHeaderer err) as [hs |] eqn:Hhs; [| apply Hset].
  rewrite bool_decide_false; [apply Hset |].
  rewrite list_elem_of_fmap. intros (k & Hk & Hin).
  apply elem_of_rangeKeys in Hin. by apply (Hkeys hs k).
Qed.

(** A key of the error's header map with the canonical form
    [Content-Type] replaces the JSON content type by what [Get] reads. *)
Lemma ErrorEncoder_content_type_replaced (err : error) (w : ResponseWriter)
    (hs : Header) (k : string) :
  asHeaderer err = Some hs →
  is_Some (hs !! k) →
  CanonicalMIMEHeaderKey k = "Content-Type" →
  header (ErrorEncoder err w).2 !! "Content-Type"
  = Some [firstValue hs "Content-Type"].
Proof.
  intros Hhs Hk Hcanon. rewrite ErrorEncoder_header, headersAfter_lookup, Hhs.
  rewrite bool_decide_true; [done |].
  rewrite list_elem_of_fmap. exists k. split; [done |].
  by apply elem_of_rangeKeys.
Qed.

(** The enumeration order of the header loop does not show in what the
    encoder does. *)
Lemma ErrorEncoderWith_order (order : Header → list string) (err : error)
    (w : ResponseWriter) :
  (∀ hs, order hs ≡ₚ rangeKeys hs) →
  ErrorEncoderWith order err w = ErrorEncoder err w.
Proof.
  intros Horder. unfold ErrorEncoder, ErrorEncoderWith.
  unfold mbind, M_bind, bind. cbn.
  destruct (asHeaderer err) as [hs |]; [| done].
  by rewrite (copyHeaders_order hs _ _ _ (Horder hs)).
Qed.

(** C9.  [NewHttpError] takes any status, payload and header map; the
    value reports the status it was given, and its [Error()] is the
    fixed string, whatever the payload and the headers. *)
Theorem NewHttpError_status_and_text (s : Z) (p : any) (h : Header) :
  HttpError_StatusCode (NewHttpError s p h) = s
  ∧ HttpError_Error (NewHttpError s p h) = "HttpError"
  ∧ asStatusCoder (HttpError_error (NewHttpError s p h)) = Some s
  ∧ Error (HttpError_error (NewHttpError s p h)) = "HttpError"
  ∧ ∀ (s' : Z) (p' : any) (h' : Header),
      HttpError_Error (NewHttpError s' p' h')
      = HttpError_Error (NewHttpError s p h).
Proof. by repeat split. Qed.

End EncoderFacts.

(* ------------------------------------------------------------------ *)
(** ** Metadata into the context *)

Section Metadata.

Import grpckit.

(** A slice that is empty and not nil stops the loop with a panic, at
    whatever place of the enumeration it comes. *)
Lemma MetadataToContextFrom_empty_slice (kvs : list (string * slice))
    (ctx : Context) (k : string) :
  (k, Some []) ∈ kvs →
  MetadataToContextFrom kvs ctx
  = Panicked "index out of range [0] with length 0".
Proof.
  revert ctx. induction kvs as [| [k' v] kvs IH]; intros ctx Hin.
  - by apply elem_of_nil in Hin.
  - apply elem_of_cons in Hin as [Heq | Hin].
    + by inversion Heq.
    + cbn. destruct v as [[| v0 vs] |]; [done | by apply IH | by apply IH].
Qed.

Lemma MetadataToContextFrom_values (kvs : list (string * slice)) (ctx : Context) :
  NoDup kvs.*1 →
  (∀ k, (k, Some []) ∉ kvs) →
  ∃ ctx', MetadataToContextFrom kvs ctx = Returned ctx'
    ∧ (∀ k, Value ctx' (ContextKey k)
            = entryFor ((list_to_map kvs : MD) !! k) (Value ctx (ContextKey k)))
    ∧ (∀ k, Value ctx' (OtherKey k) = Value ctx (OtherKey k)).
Proof.
  revert ctx. induction kvs as [| [k v] kvs IH]; intros ctx Hnd Hne.
  - exists ctx. by repeat split.
  - rewrite fmap_cons in Hnd. apply NoDup_cons in Hnd as [Hk Hnd].
    assert (Hne' : ∀ k0, (k0, Some []) ∉ kvs).
    { intros k0 Hin. apply (Hne k0), elem_of_cons. by right. }
    assert (Hrest : (list_to_map kvs : MD) !! k = None).
    { by apply not_elem_of_list_to_map_1. }
    destruct v as [[| v0 vs] |].
    + destruct (Hne k). apply elem_of_cons. by left.
    + destruct (IH (WithValue ctx (ContextKey k) (VString v0)) Hnd Hne')
        as (ctx' & Hrun & Hctx & Hother).
      exists ctx'. split; [done |]. split; [| done].
      intros k0. rewrite Hctx. cbn [list_to_map foldr uncurry Value].
      destruct (decide (k = k0)) as [<- | Hneq].
      * rewrite Hrest, lookup_insert_eq. cbn. by rewrite decide_True.
      * rewrite lookup_insert_ne by done.
        rewrite decide_False; [done | congruence].
    + destruct (IH ctx Hnd Hne') as (ctx' & Hrun & Hctx & Hother).
      exists ctx'. split; [done |]. split; [| done].
      intros k0. rewrite Hctx. cbn [list_to_map foldr uncurry].
      destruct (decide (k = k0)) as [<- | Hneq].
      * by rewrite Hrest, lookup_insert_eq.
      * by rewrite lookup_insert_ne.
Qed.

(** Where no value of the map is an empty slice that is not nil, the
    result holds the first value under each key that has one, and what the
    input context held under every other key: a key bound to the nil
    slice adds nothing. *)
Lemma MetadataToContext_values (ctx : Context) (md : MD) :
  (∀ k, md !! k ≠ Some (Some [])) →
  ∃ ctx', MetadataToContext ctx md = Returned ctx'
    ∧ (∀ k, Value ctx' (ContextKey k)
            = entryFor (md !! k) (Value ctx (ContextKey k)))
    ∧ (∀ k, Value ctx' (OtherKey k) = Value ctx (OtherKey k)).
Proof.
  intros Hne. unfold MetadataToContext.
  destruct (MetadataToContextFrom_values (map_to_list md) ctx)
    as (ctx' & Hrun & Hctx & Hother).
  - apply NoDup_fst_map_to_list.
  - intros k Hin. apply elem_of_map_to_list in Hin. by apply (Hne k).
  - exists ctx'. split; [done |]. split; [| done].
    intros k. by rewrite Hctx, list_to_map_to_list.
Qed.

Lemma MetadataToContext_empty_slice (ctx : Context) (md : MD) (k : string) :
  md !! k = Some (Some []) →
  MetadataToContext ctx md = Panicked "index out of range [0] with length 0".
Proof.
  intros Hk. apply (MetadataToContextFrom_empty_slice _ _ k).
  by apply elem_of_map_to_list.
Qed.

(** C4.  On the metadata of the claim, the key [empty-key] bound to a
    slice that is empty and not nil, the function does not return a
    context: the guard of line 14 lets the slice through and [v[0]]
    panics, for every input context.  (With the nil slice in its place the
    function returns, and the result has [user-id] and nothing for
    [empty-key]: see [MetadataToContext_nil_slice].) *)
Theorem MetadataToContext_empty_slice_panics (ctx : Context) :
  MetadataToContext ctx sample.md_empty_slice
  = Panicked "index out of range [0] with length 0".
Proof.
  apply (MetadataToContext_empty_slice _ _ "empty-key"). reflexivity.
Qed.

Lemma MetadataToContext_nil_slice :
  ∃ ctx', MetadataToContext Background sample.md_nil_slice = Returned ctx'
    ∧ Value ctx' (ContextKey "user-id") = Some (VString "42")
    ∧ Value ctx' (ContextKey "empty-key") = None.
Proof. eexists. by vm_compute. Qed.

End Metadata.

(* ------------------------------------------------------------------ *)
(** ** Worked examples *)

Section Worked.

Import http httpkit sample.

Lemma ErrorEncoder_first_detail_body_witness :
  ErrorEncoder notFoundWithDetail fresh
  = written notFoundWithDetail fresh 404 (object userDetail).
Proof.
  apply (ErrorEncoder_first_detail_body notFoundWithDetail fresh
           notFoundStatus userDetail []);
    reflexivity.
Defined.

Lemma ErrorEncoder_default_witness :
  ErrorEncoder boom fresh
  = written boom fresh 500 (object [("message", "boom")]).
Proof. apply (ErrorEncoder_default boom fresh); reflexivity. Defined.

Lemma ErrorEncoder_custom_status_witness :
  ErrorEncoder teapot fresh
  = written teapot fresh 418 (object [("message", "short and stout")]).
Proof. apply (ErrorEncoder_custom_status teapot fresh 418); reflexivity. Defined.

Lemma ErrorEncoder_panics_on_undecoded_detail_witness :
  ∃ r, ErrorEncoder undecodable fresh
       = (Panicked r,
          {| header := headersAfter undecodable (header fresh);
             calls := calls fresh |}).
Proof.
  apply (ErrorEncoder_panics_on_undecoded_detail undecodable fresh
           undecodableStatus "proto: not found" []);
    reflexivity.
Defined.

Lemma ErrorEncoder_content_type_witness :
  header (ErrorEncoder teapot fresh).2 !! "Content-Type"
  = Some [JSONContentType].
Proof.
  apply (ErrorEncoder_content_type teapot fresh).
  intros hs k Hhs. discriminate Hhs.
Defined.

(** C6, as the claim has it, fails: an [HttpError] built with the header
    [Content-Type: text/plain] is answered with that content type, since
    the header loop runs after the JSON content type is set. *)
Lemma ErrorEncoder_content_type_overridden :
  (ErrorEncoder plainTextError fresh).1 = Returned tt
  ∧ header (ErrorEncoder plainTextError fresh).2 !! "Content-Type"
    = Some ["text/plain"]
  ∧ header (ErrorEncoder plainTextError fresh).2 !! "Content-Type"
    ≠ Some [JSONContentType].
Proof. by vm_compute. Qed.

(** C2.  An error that reports the status 418 and is a status error, not
    found, whose first detail could not be decoded: the encoder panics at
    the assertion of line 53 and writes no status line at all, neither
    the 404 of the table nor the 418. *)
Theorem ErrorEncoder_both_capabilities_no_status_written :
  asStatusCoder undecodable = Some 418
  ∧ Code <$> FromError undecodable = Some codes.NotFound
  ∧ ErrorEncoder undecodable fresh
    = (Panicked "interface conversion: interface is not proto.Message",
       {| header := {[ "Content-Type" := [JSONContentType] ]}; calls := [] |}).
Proof. by vm_compute. Qed.

End Worked.

(* ------------------------------------------------------------------ *)
(** ** Further properties of the status table *)

Section StatusTableMore.

Import httpkit.

(** Splits a goal about an arbitrary code into the seventeen codes of the
    enumeration and the rest. *)
Lemma code_cases (P : codes.Code → Prop) :
  (∀ c, c ∈ codes.all → P c) →
  (∀ c, c < 0 ∨ 16 < c → P c) →
  ∀ c, P c.
Proof.
  intros Hin Hout c. destruct (decide (0 <= c <= 16)) as [Hc | Hc].
  - apply Hin, codes_all_range, Hc.
  - apply Hout. lia.
Qed.

(** X1.  The status 200 is what [httpStatusFromCode] returns for [OK] and
    for no other code, inside or outside the enumeration. *)
Theorem httpStatusFromCode_ok_iff (c : codes.Code) :
  httpStatusFromCode c = 200 ↔ c = codes.OK.
Proof.
  split; [| by intros ->].
  revert c.
  apply (code_cases (λ c, httpStatusFromCode c = 200 → c = codes.OK)).
  - intros c Hc Hst. unfold codes.all in Hc.
    repeat (apply elem_of_cons in Hc as [-> | Hc];
            [first [reflexivity | by vm_compute in Hst] |]).
    by apply elem_of_nil in Hc.
  - intros c Hc Hst. by rewrite (httpStatusFromCode_unrecognized c Hc) in Hst.
Qed.

(** X2.  Every code other than [OK] is answered with an error status: one
    of the client and server errors from 400 to 504. *)
Theorem httpStatusFromCode_error_range (c : codes.Code) :
  c ≠ codes.OK → 400 <= httpStatusFromCode c <= 504.
Proof.
  revert c.
  apply (code_cases (λ c, c ≠ codes.OK → 400 <= httpStatusFromCode c <= 504)).
  - intros c Hc Hne. unfold codes.all in Hc.
    apply elem_of_cons in Hc as [-> | Hc]; [done |].
    repeat (apply elem_of_cons in Hc as [-> | Hc];
            [vm_compute; split; discriminate |]).
    by apply elem_of_nil in Hc.
  - intros c Hc _. rewrite (httpStatusFromCode_unrecognized c Hc). lia.
Qed.

Lemma httpStatusFromCode_error_range_witness :
  400 <= httpStatusFromCode codes.Unavailable <= 504.
Proof. apply (httpStatusFromCode_error_range codes.Unavailable). discriminate. Defined.

End StatusTableMore.

(* ------------------------------------------------------------------ *)
(** ** Further properties of the encoder *)

Section EncoderMore.

Import http httpkit.
Context `{Ms : Marshalers}.

(** X3.  For a status error without details, the encoder writes the status
    of the table for the code and, as body, the JSON of the wrapper around
    the message of the status (not around [err.Error()]). *)
Theorem ErrorEncoder_status_message_body (err : error) (w : ResponseWriter)
    (e : Status) :
  FromError err = Some e →
  Details e = [] →
  ErrorEncoder err w
  = written err w (httpStatusFromCode (Code e))
      (json_Marshal_errorWrapper {| Message := StatusMessage e |}).1.
Proof.
  intros He Hd. rewrite ErrorEncoder_run. unfold written, statusAndBody.
  rewrite He, Hd. by destruct (json_Marshal_errorWrapper _).
Qed.

(** X4.  For a status error, the encoder consults nothing but the status
    and the headers: two errors with the same status and the same headers
    are answered alike, whatever their [Error()] text, their [StatusCode()]
    and their [MarshalJSON()]. *)
Theorem ErrorEncoder_status_error_only (err err' : error) (w : ResponseWriter)
    (e : Status) :
  FromError err = Some e →
  FromError err' = Some e →
  asHeaderer err = asHeaderer err' →
  ErrorEncoder err w = ErrorEncoder err' w.
Proof.
  intros He He' Hh. rewrite !ErrorEncoder_run.
  unfold headersAfter, statusAndBody. by rewrite He, He', Hh.
Qed.

(** X5.  For an error that is no status error and has a JSON form, the body
    is the bytes [MarshalJSON] returned, also when it returned an error
    with them; the status is the one the error reports, 500 without one. *)
Theorem ErrorEncoder_marshaler_body (err : error) (w : ResponseWriter)
    (body : bytes) (merr : option string) :
  FromError err = None →
  asMarshaler err = Some (body, merr) →
  ErrorEncoder err w = written err w (customOrDefault err) body.
Proof.
  intros He Hm. rewrite ErrorEncoder_run. unfold written, statusAndBody.
  by rewrite He, Hm.
Qed.

(** X6.  An [HttpError] built by [NewHttpError] is answered with the status
    it was built with, unchanged and unchecked, and with the bytes
    [json.Marshal] gives for its payload, whatever error comes with them. *)
Theorem ErrorEncoder_HttpError (s : Z) (p : any) (h : Header) (w : ResponseWriter) :
  ErrorEncoder (HttpError_error (NewHttpError s p h)) w
  = written (HttpError_error (NewHttpError s p h)) w s (json_Marshal p).1.
Proof.
  rewrite ErrorEncoder_run. unfold written, statusAndBody. cbn.
  unfold HttpError_MarshalJSON. cbn. by destruct (json_Marshal p).
Qed.

(** X7.  What the encoder appends to the calls of the sink: the status
    line and then the body, once, when it returns; nothing when it panics.
    The calls made before are kept in both cases. *)
Theorem ErrorEncoder_one_response (err : error) (w : ResponseWriter) :
  match (ErrorEncoder err w).1 with
  | Returned _ =>
      ∃ code body,
        calls (ErrorEncoder err w).2
        = (calls w ++ [WriteHeaderCall code; WriteCall body])%list
  | Panicked _ => calls (ErrorEncoder err w).2 = calls w
  end.
Proof.
  rewrite ErrorEncoder_run. cbn zeta.
  destruct (statusAndBody _ _ _).1 as [[code body] | r]; cbn; eauto.
Qed.

(** X8.  Of a header of the error with several values, only the first
    reaches the response: under a key in canonical form the sink holds that
    one value. *)
Theorem ErrorEncoder_header_first_value (err : error) (w : ResponseWriter)
    (hs : Header) (k v : string) (vs : list string) :
  asHeaderer err = Some hs →
  hs !! k = Some (v :: vs) →
  CanonicalMIMEHeaderKey k = k →
  header (ErrorEncoder err w).2 !! k = Some [v].
Proof.
  intros Hhs Hk Hcanon. rewrite ErrorEncoder_header, headersAfter_lookup, Hhs.
  rewrite bool_decide_true.
  - unfold firstValue. by rewrite Hk.
  - rewrite list_elem_of_fmap. exists k. split; [done |].
    apply elem_of_rangeKeys. by rewrite Hk.
Qed.

(** X9.  A header of the error under a key that is not in canonical form
    loses its value, unless the map also has the canonical key: the loop
    reads the value back with [Get], which looks under the canonical key,
    and the sink gets the canonical name with the empty string. *)
Theorem ErrorEncoder_header_noncanonical_key (err : error) (w : ResponseWriter)
    (hs : Header) (k : string) :
  asHeaderer err = Some hs →
  is_Some (hs !! k) →
  hs !! CanonicalMIMEHeaderKey k = None →
  header (ErrorEncoder err w).2 !! CanonicalMIMEHeaderKey k = Some [""].
Proof.
  intros Hhs Hk Hnone. rewrite ErrorEncoder_header, headersAfter_lookup, Hhs.
  rewrite bool_decide_true.
  - unfold firstValue. by rewrite Hnone.
  - rewrite list_elem_of_fmap. exists k. split; [done |].
    by apply elem_of_rangeKeys.
Qed.

(** X10.  The encoder leaves alone every header of the sink other than
    [Content-Type] and the canonical names of the keys of the error's
    headers. *)
Theorem ErrorEncoder_header_others_kept (err : error) (w : ResponseWriter)
    (c : string) :
  c ≠ "Content-Type" →
  (∀ hs k, asHeaderer err = Some hs → is_Some (hs !! k) →
           CanonicalMIMEHeaderKey k ≠ c) →
  header (ErrorEncoder err w).2 !! c = header w !! c.
Proof.
  intros Hct Hkeys. rewrite ErrorEncoder_header, headersAfter_lookup.
  assert (Hset : Set_ (header w) "Content-Type" JSONContentType !! c
                 = header w !! c).
  { unfold Set_. by apply lookup_insert_ne. }
  destruct (asHeaderer err) as [hs |] eqn:Hhs; [| done].
  rewrite bool_decide_false; [done |].
  rewrite list_elem_of_fmap. intros (k & Hk & Hin).
  apply elem_of_rangeKeys in Hin. by apply (Hkeys hs k).
Qed.

(** X11.  The order in which the keys of the error's headers are
    enumerated, which Go leaves open, does not show: two enumerations of the
    same keys give the same outcome and the same sink. *)
Theorem ErrorEncoder_enumeration_order (order order' : Header → list string)
    (err : error) (w : ResponseWriter) :
  (∀ hs, order hs ≡ₚ rangeKeys hs) →
  (∀ hs, order' hs ≡ₚ rangeKeys hs) →
  ErrorEncoderWith order err w = ErrorEncoderWith order' err w.
Proof.
  intros Ho Ho'.
  by rewrite (ErrorEncoderWith_order order err w Ho),
             (ErrorEncoderWith_order order' err w Ho').
Qed.

(** X12.  The error of [NewBadRequestError] is never nil, and the encoder
    answers it with 400 and the JSON of the wrapper around the formatted
    message. *)
Theorem ErrorEncoder_NewBadRequestError `{Fm : Formatter} (format : string)
    (a : list fmtArg) (w : ResponseWriter) :
  ∃ err, NewBadRequestError format a = Some err
    ∧ ErrorEncoder err w
      = written err w 400
          (json_Marshal_errorWrapper {| Message := Sprintf format a |}).1.
Proof.
  eexists. split; [reflexivity |].
  rewrite ErrorEncoder_run. unfold written, statusAndBody. cbn.
  by destruct (json_Marshal_errorWrapper _).
Qed.

(** X19.  An [HttpError] built with an empty (or nil) header map changes
    the header map of the sink at [Content-Type] only, which it sets to the
    JSON content type. *)
Theorem ErrorEncoder_HttpError_no_headers (s : Z) (p : any) (w : ResponseWriter) :
  header (ErrorEncoder (HttpError_error (NewHttpError s p ∅)) w).2
  = <["Content-Type" := [JSONContentType]]> (header w).
Proof.
  rewrite ErrorEncoder_header. unfold headersAfter. cbn.
  unfold HttpError_Headers, rangeKeys. cbn.
  by rewrite map_to_list_empty.
Qed.

End EncoderMore.

(* ------------------------------------------------------------------ *)
(** ** Further properties of the metadata helper and the file encoder *)

Section MetadataMore.

Import grpckit.

Lemma MetadataToContextFrom_all_nil (kvs : list (string * slice)) (ctx : Context) :
  (∀ k v, (k, v) ∈ kvs → v = None) →
  MetadataToContextFrom kvs ctx = Returned ctx.
Proof.
  induction kvs as [| [k v] kvs IH]; intros Hnil; [done |].
  assert (Hv : v = None).
  { apply (Hnil k), elem_of_cons. by left. }
  subst v. cbn. apply IH. intros k' v' Hin.
  apply (Hnil k'), elem_of_cons. by right.
Qed.

(** X13.  [MetadataToContext] returns a context exactly when no key of the
    metadata is bound to a slice that is empty and not nil; otherwise it
    panics. *)
Theorem MetadataToContext_returns_iff (ctx : Context) (md : MD) :
  (∃ ctx', MetadataToContext ctx md = Returned ctx')
  ↔ ∀ k, md !! k ≠ Some (Some []).
Proof.
  split.
  - intros [ctx' Hrun] k Hk.
    by rewrite (MetadataToContext_empty_slice ctx md k Hk) in Hrun.
  - intros Hne.
    destruct (MetadataToContext_values ctx md Hne) as (ctx' & Hrun & _).
    by exists ctx'.
Qed.

(** X14.  Where the function returns, the result holds, under each key of
    the metadata with values, the first of them and none of the others; an
    entry the input context had under that key is shadowed. *)
Theorem MetadataToContext_first_value (ctx : Context) (md : MD) (k v : string)
    (vs : list string) :
  (∀ k', md !! k' ≠ Some (Some [])) →
  md !! k = Some (Some (v :: vs)) →
  ∃ ctx', MetadataToContext ctx md = Returned ctx'
    ∧ Value ctx' (ContextKey k) = Some (VString v).
Proof.
  intros Hne Hk.
  destruct (MetadataToContext_values ctx md Hne) as (ctx' & Hrun & Hctx & _).
  exists ctx'. split; [done |]. unfold slice in *. by rewrite Hctx, Hk.
Qed.

(** X15.  Where the function returns, the result holds what the input
    context held under every key that is absent from the metadata or bound
    to the nil slice there, and under every key of another type. *)
Theorem MetadataToContext_preserves (ctx : Context) (md : MD) :
  (∀ k, md !! k ≠ Some (Some [])) →
  ∃ ctx', MetadataToContext ctx md = Returned ctx'
    ∧ (∀ k, md !! k = None ∨ md !! k = Some None →
            Value ctx' (ContextKey k) = Value ctx (ContextKey k))
    ∧ (∀ k, Value ctx' (OtherKey k) = Value ctx (OtherKey k)).
Proof.
  intros Hne.
  destruct (MetadataToContext_values ctx md Hne) as (ctx' & Hrun & Hctx & Hother).
  exists ctx'. split; [done |]. split; [| done].
  intros k [Hk | Hk]; unfold slice in *; by rewrite Hctx, Hk.
Qed.

(** X16.  On metadata without a value, the empty map or a map whose keys
    are all bound to the nil slice, the function returns the input context
    itself. *)
Theorem MetadataToContext_all_nil (ctx : Context) (md : MD) :
  (∀ k v, md !! k = Some v → v = None) →
  MetadataToContext ctx md = Returned ctx.
Proof.
  intros Hnil. apply MetadataToContextFrom_all_nil.
  intros k v Hin. apply elem_of_map_to_list in Hin. by apply (Hnil k).
Qed.

(** X17.  The order in which the keys of the metadata are enumerated, which
    Go leaves open, does not show: any enumeration panics when the one of
    the model does, with the same message, and otherwise returns a context
    with the same value under every key. *)
Theorem MetadataToContext_enumeration_order (ctx : Context) (md : MD)
    (kvs : list (string * slice)) :
  kvs ≡ₚ map_to_list md →
  match MetadataToContextFrom kvs ctx, MetadataToContext ctx md with
  | Returned c, Returned c' => ∀ k, Value c k = Value c' k
  | Panicked r, Panicked r' => r = r'
  | _, _ => False
  end.
Proof.
  intros Hperm. unfold MetadataToContext.
  assert (Hnd : NoDup (map_to_list md).*1) by apply NoDup_fst_map_to_list.
  assert (Hnd' : NoDup kvs.*1) by by rewrite Hperm.
  destruct (decide (Exists (λ kv, kv.2 = Some []) kvs)) as [Hex | Hnex].
  - apply Exists_exists in Hex as ([k v] & Hin & Hv). cbn in Hv. subst v.
    rewrite (MetadataToContextFrom_empty_slice kvs ctx k Hin).
    rewrite (MetadataToContextFrom_empty_slice (map_to_list md) ctx k);
      [done | by rewrite <- Hperm].
  - assert (Hne : ∀ k, (k, Some []) ∉ kvs).
    { intros k Hin. apply Hnex, Exists_exists. by exists (k, Some []). }
    assert (Hne' : ∀ k, (k, Some []) ∉ map_to_list md).
    { intros k Hin. apply (Hne k). by rewrite Hperm. }
    destruct (MetadataToContextFrom_values kvs ctx Hnd' Hne)
      as (c & -> & Hc & Hco).
    destruct (MetadataToContextFrom_values (map_to_list md) ctx Hnd Hne')
      as (c' & -> & Hc' & Hco').
    intros [k | k].
    + rewrite Hc, Hc'. by rewrite (list_to_map_proper _ _ Hnd' Hperm).
    + by rewrite Hco, Hco'.
Qed.

(** X18.  [EncodeGRPCBinaryFile] never reports an error: for a response
    that is a [*fileserve.BinaryFile], the nil pointer included, it returns
    that same value with a nil error; for any other response, the nil
    interface included, it panics. *)
Theorem EncodeGRPCBinaryFile_outcome (BinaryFile : Type)
    (response : dynamic BinaryFile) :
  match EncodeGRPCBinaryFile BinaryFile response with
  | Returned (resp, e) =>
      resp = response ∧ e = None ∧ ∃ p, response = BinaryFilePointer BinaryFile p
  | Panicked _ => ∀ p, response ≠ BinaryFilePointer BinaryFile p
  end.
Proof.
  destruct response as [| p | name]; cbn; [done | | done].
  repeat split. by exists p.
Qed.

End MetadataMore.

(* ------------------------------------------------------------------ *)
(** ** Worked examples of the further properties *)

Section WorkedMore.

Import http httpkit grpckit sample.

Lemma ErrorEncoder_status_message_body_witness :
  ErrorEncoder notFoundPlain fresh
  = written notFoundPlain fresh 404 (object [("message", "no such user")]).
Proof.
  apply (ErrorEncoder_status_message_body notFoundPlain fresh notFoundPlainStatus);
    reflexivity.
Defined.

Lemma ErrorEncoder_status_error_only_witness :
  ErrorEncoder notFoundPlain fresh = ErrorEncoder notFoundBare fresh.
Proof.
  apply (ErrorEncoder_status_error_only notFoundPlain notFoundBare fresh
           notFoundPlainStatus);
    reflexivity.
Defined.

Lemma ErrorEncoder_marshaler_body_witness :
  ErrorEncoder halfMarshaled fresh
  = written halfMarshaled fresh 500 (object [("partial", "yes")]).
Proof.
  apply (ErrorEncoder_marshaler_body halfMarshaled fresh
           (object [("partial", "yes")]) (Some "unexpected end"));
    reflexivity.
Defined.

Lemma ErrorEncoder_header_first_value_witness :
  header (ErrorEncoder twoValues fresh).2 !! "X-Test" = Some ["v1"].
Proof.
  apply (ErrorEncoder_header_first_value twoValues fresh
           {[ "X-Test" := ["v1"; "v2"] ]} "X-Test" "v1" ["v2"]);
    reflexivity.
Defined.

Lemma ErrorEncoder_header_noncanonical_key_witness :
  header (ErrorEncoder lowerCaseKey fresh).2 !! CanonicalMIMEHeaderKey "x-test"
  = Some [""].
Proof.
  apply (ErrorEncoder_header_noncanonical_key lowerCaseKey fresh
           {[ "x-test" := ["v1"] ]} "x-test").
  - reflexivity.
  - exists ["v1"]. reflexivity.
  - reflexivity.
Defined.

Lemma ErrorEncoder_header_others_kept_witness :
  header (ErrorEncoder twoValues preset).2 !! "X-Request-Id"
  = header preset !! "X-Request-Id".
Proof.
  apply (ErrorEncoder_header_others_kept twoValues preset "X-Request-Id").
  - discriminate.
  - intros hs k Hhs [v Hv]. injection Hhs as <-.
    apply lookup_singleton_Some in Hv as [<- _]. discriminate.
Defined.

Lemma ErrorEncoder_enumeration_order_witness :
  ErrorEncoderWith (λ hs, reverse (rangeKeys hs)) collidingKeys fresh
  = ErrorEncoderWith rangeKeys collidingKeys fresh.
Proof.
  apply (ErrorEncoder_enumeration_order
           (λ hs, reverse (rangeKeys hs)) rangeKeys collidingKeys fresh).
  - intros hs. apply reverse_Permutation.
  - intros hs. reflexivity.
Defined.

Lemma md_two_values_no_empty_slice (k : string) :
  md_two_values !! k ≠ Some (Some []).
Proof.
  unfold md_two_values. intros Hk.
  apply lookup_insert_Some in Hk as [[_ Hk] | [_ Hk]]; [discriminate |].
  apply lookup_singleton_Some in Hk as [_ Hk]. discriminate.
Qed.

Lemma MetadataToContext_first_value_witness :
  ∃ ctx', MetadataToContext ctx_user7 md_two_values = Returned ctx'
    ∧ Value ctx' (ContextKey "user-id") = Some (VString "42").
Proof.
  apply (MetadataToContext_first_value ctx_user7 md_two_values
           "user-id" "42" ["43"]).
  - exact md_two_values_no_empty_slice.
  - reflexivity.
Defined.

Lemma MetadataToContext_preserves_witness :
  ∃ ctx', MetadataToContext ctx_user7 md_two_values = Returned ctx'
    ∧ (∀ k, md_two_values !! k = None ∨ md_two_values !! k = Some None →
            Value ctx' (ContextKey k) = Value ctx_user7 (ContextKey k))
    ∧ (∀ k, Value ctx' (OtherKey k) = Value ctx_user7 (OtherKey k)).
Proof.
  apply (MetadataToContext_preserves ctx_user7 md_two_values).
  exact md_two_values_no_empty_slice.
Defined.

Lemma MetadataToContext_all_nil_witness :
  MetadataToContext ctx_user7 md_all_nil = Returned ctx_user7.
Proof.
  apply (MetadataToContext_all_nil ctx_user7 md_all_nil).
  unfold md_all_nil. intros k v Hk.
  apply lookup_insert_Some in Hk as [[_ Hk] | [_ Hk]]; [done |].
  by apply lookup_singleton_Some in Hk as [_ Hk].
Defined.

Lemma MetadataToContext_enumeration_order_witness :
  match
    MetadataToContextFrom (reverse (map_to_list md_two_values)) ctx_user7,
    MetadataToContext ctx_user7 md_two_values
  with
  | Returned c, Returned c' => ∀ k, Value c k = Value c' k
  | Panicked r, Panicked r' => r = r'
  | _, _ => False
  end.
Proof.
  apply (MetadataToContext_enumeration_order ctx_user7 md_two_values
           (reverse (map_to_list md_two_values))).
  apply reverse_Permutation.
Defined.

End WorkedMore.
